(** * The resource table of the cluster-state store

    A shallow embedding of [manager/state/store/resources.go] (package
    [store] of swarmkit, vendored in the docker tree), together with the
    properties of its natural-language specification.

    The Go file is written against the transaction interfaces [ReadTx] and
    [Tx]: every access to storage is a call of [tx.get], [tx.find],
    [tx.create], [tx.update] or [tx.delete], and the referential check is a
    call of [FindExtensions].  The embedding keeps that shape.  A Go function
    becomes a program [Prog A]: a finite tree whose nodes are the calls made
    on the transaction and whose leaves are the returned value, or the
    run-time panic of a failed type assertion.  A program is then run on any
    implementation of the transaction ([Tx T], a record of operations over
    a state type [T]), which gives both its result with the final state
    ([run]) and the sequence of calls it made ([trace]).  A create, an update
    or a delete of the transaction runs the indexers the table registered,
    which are code of this file too: such a call may panic instead of
    returning, and the run then ends in that panic. *)

From Stdlib Require Import List String Ascii ZArith Bool Lia.
From Stdlib.Strings Require Import Byte.
Import ListNotations.
Local Open Scope string_scope.
Local Open Scope list_scope.

Set Implicit Arguments.

(** ** Data model *)

(** [api.Resource]: the fields the store reads.  [Name] is
    [Annotations.Name] and [Indices] the custom index entries
    [Annotations.Indices] (key, value).  A [*api.Resource] is modelled by the
    record it points to. *)
Record Resource : Type := mkResource {
  ID : string;
  Name : string;
  Kind : string;
  Indices : list (string * string)
}.

(** [api.Extension], a row of the extension registry. *)
Record Extension : Type := mkExtension {
  ExtID : string;
  ExtName : string
}.

(** [api.StoreObject] is an interface.  [resourceEntry] is the row type of
    this table ([type resourceEntry struct { *api.Resource }]); [apiResource]
    is a [*api.Resource] on its own, which implements the interface in the
    [api] package; [extensionEntry] is the row type of the registry's table
    and stands for the other implementations.  A type assertion to
    [resourceEntry] fails on the last two. *)
Inductive StoreObject : Type :=
| resourceEntry (r : Resource)
| apiResource (r : Resource)
| extensionEntry (e : Extension).

(** The selectors ([By] is an interface of the package).  The source file
    names [All], [ByName] and the five types of [checkType]; [byOther] stands
    for every other selector type of the package. *)
Inductive By : Type :=
| byAll
| byIDPrefix (prefix : string)
| byName (name : string)
| byKind (kind : string)
| byCustom (objType index value : string)
| byCustomPrefix (objType index value : string)
| byOther (selector : string).

Definition All : By := byAll.

(** Modelled from the spec: the constructor [ByName] of the package (its
    definition is not in this file); the spec calls the lookup it builds an
    exact-name query. *)
Definition ByName (name : string) : By := byName name.

(** Go's [error] values; [None : option error] is the [nil] error.
    [ErrExist], [ErrNotExist], [ErrInvalidFindBy] and [errUnknownStoreAction]
    are the package's error variables, [Errorf] and [Wrap] the values built by
    [errors.Errorf] and [errors.Wrap], [ErrEngine] an error of the storage
    engine passed through. *)
Inductive error : Type :=
| ErrExist
| ErrNotExist
| ErrInvalidFindBy
| errUnknownStoreAction
| Errorf (message : string)
| Wrap (cause : error) (message : string)
| ErrEngine (message : string).

(** [api.StoreSnapshot]: one field per table; [Extensions] stands for the
    fields of the other tables. *)
Record StoreSnapshot : Type := mkStoreSnapshot {
  Extensions : list Extension;
  Resources : list Resource
}.

Definition set_Resources (snapshot : StoreSnapshot) (rs : list Resource)
  : StoreSnapshot :=
  {| Extensions := Extensions snapshot; Resources := rs |}.

(** [api.StoreActionKind] is an [int32] enumeration; the named values are
    those of the generated [api] package. *)
Definition StoreActionKind : Type := Z.
Definition StoreActionKindUnknown : StoreActionKind := 0%Z.
Definition StoreActionKindCreate : StoreActionKind := 1%Z.
Definition StoreActionKindUpdate : StoreActionKind := 2%Z.
Definition StoreActionKindRemove : StoreActionKind := 3%Z.

(** The target of a store action, a protobuf oneof: [StoreAction_Resource]
    carries a resource, [StoreAction_Other] stands for the targets of the
    other tables (and for an unset target). *)
Inductive StoreAction_Target : Type :=
| StoreAction_Resource (resource : Resource)
| StoreAction_Other (target : string).

Record StoreAction : Type := mkStoreAction {
  Action : StoreActionKind;
  Target : StoreAction_Target
}.

Definition tableResource : string := "resource".

(** ** Programs over the transaction interface *)

(** A call on the transaction.  [OpGet], [OpFind] are the methods of
    [ReadTx], [OpCreate], [OpUpdate] and [OpDelete] those [Tx] adds, and
    [OpFindExtensions] is the call [FindExtensions(tx, by)] of the extension
    registry, whose code is outside this file. *)
Inductive Op : Type :=
| OpGet (table id : string)
| OpFind (table : string) (by_ : By) (checkType : By -> option error)
| OpCreate (table : string) (o : StoreObject)
| OpUpdate (table : string) (o : StoreObject)
| OpDelete (table id : string)
| OpFindExtensions (by_ : By).

(** What a call answers.  [tx.find] hands every selected object to its
    callback: the answer lists these objects in the order of the calls. *)
Definition Ans (op : Op) : Type :=
  match op with
  | OpGet _ _ => option StoreObject
  | OpFind _ _ _ => (list StoreObject * option error)%type
  | OpCreate _ _ | OpUpdate _ _ | OpDelete _ _ => option error
  | OpFindExtensions _ => (list Extension * option error)%type
  end.

Definition is_write (op : Op) : bool :=
  match op with
  | OpCreate _ _ | OpUpdate _ _ | OpDelete _ _ => true
  | _ => false
  end.

Definition is_check (op : Op) : bool :=
  match op with
  | OpFindExtensions _ => true
  | _ => false
  end.

Inductive Prog (A : Type) : Type :=
| Ret (a : A)
| Panic
| Do (op : Op) (k : Ans op -> Prog A).

Arguments Panic {A}.

Fixpoint bind {A B : Type} (p : Prog A) (f : A -> Prog B) : Prog B :=
  match p with
  | Ret a => f a
  | Panic => Panic
  | Do op k => Do op (fun x => bind (k x) f)
  end.

Definition call (op : Op) : Prog (Ans op) := Do op (fun x => Ret x).

Notation "x <- p ;; q" := (bind p (fun x => q))
  (at level 61, p at next level, right associativity).
Notation "' pat <- p ;; q" := (bind p (fun x => match x with pat => q end))
  (at level 61, pat pattern, p at next level, right associativity).

(** The outcome of a run: a returned value, or a panic. *)
Inductive outcome (A : Type) : Type :=
| Returns (a : A)
| Panics.

Arguments Panics {A}.

(** An implementation of the transaction over states [T].  The methods of
    [ReadTx], and the registry query, read the state; those of [Tx] return
    the new state with their error, or panic. *)
Record Tx (T : Type) : Type := mkTx {
  tx_get : T -> string -> string -> option StoreObject;
  tx_find : T -> string -> By -> (By -> option error)
            -> list StoreObject * option error;
  tx_create : T -> string -> StoreObject -> outcome (option error * T);
  tx_update : T -> string -> StoreObject -> outcome (option error * T);
  tx_delete : T -> string -> string -> outcome (option error * T);
  tx_findExtensions : T -> By -> list Extension * option error
}.

Section Run.
Context {T : Type} (tx : Tx T).

Definition exec (op : Op) (s : T) : outcome (Ans op * T) :=
  match op return outcome (Ans op * T) with
  | OpGet table id => Returns (tx_get tx s table id, s)
  | OpFind table by_ checkType => Returns (tx_find tx s table by_ checkType, s)
  | OpCreate table o => tx_create tx s table o
  | OpUpdate table o => tx_update tx s table o
  | OpDelete table id => tx_delete tx s table id
  | OpFindExtensions by_ => Returns (tx_findExtensions tx s by_, s)
  end.

Fixpoint run {A : Type} (p : Prog A) (s : T) : outcome (A * T) :=
  match p with
  | Ret a => Returns (a, s)
  | Panic => Panics
  | Do op k =>
      match exec op s with
      | Returns (x, s') => run (k x) s'
      | Panics => Panics
      end
  end.

(** The calls a run makes, in order; a call that panics is the last one. *)
Fixpoint trace {A : Type} (p : Prog A) (s : T) : list Op :=
  match p with
  | Ret _ => []
  | Panic => []
  | Do op k =>
      op :: match exec op s with
            | Returns (x, s') => trace (k x) s'
            | Panics => []
            end
  end.
End Run.

(** ** The source file *)

(** [confirmExtension]: there must be an extension corresponding to the
    [Kind] field. *)
Definition confirmExtension (r : Resource) : Prog (option error) :=
  '(extensions, err) <- call (OpFindExtensions (ByName (Kind r))) ;;
  match err with
  | Some e => Ret (Some (Wrap e "failed to query extensions"))
  | None =>
      if Nat.eqb (List.length extensions) 0
      then Ret (Some (Errorf ("object kind " ++ Kind r ++ " is unregistered")))
      else Ret None
  end.

(** [CreateResource] adds a new resource object to the store. *)
Definition CreateResource (r : Resource) : Prog (option error) :=
  err <- confirmExtension r ;;
  match err with
  | Some e => Ret (Some e)
  | None => call (OpCreate tableResource (resourceEntry r))
  end.

(** [UpdateResource] updates an existing resource object in the store. *)
Definition UpdateResource (r : Resource) : Prog (option error) :=
  err <- confirmExtension r ;;
  match err with
  | Some e => Ret (Some e)
  | None => call (OpUpdate tableResource (resourceEntry r))
  end.

(** [DeleteResource] removes a resource object from the store. *)
Definition DeleteResource (id : string) : Prog (option error) :=
  call (OpDelete tableResource id).

(** The type assertion [o.(resourceEntry).Resource]; it panics on an object
    of another type. *)
Definition assertResource (o : StoreObject) : Prog Resource :=
  match o with
  | resourceEntry r => Ret r
  | apiResource _ => Panic
  | extensionEntry _ => Panic
  end.

(** [GetResource] looks up a resource object by ID; [None] is Go's [nil]. *)
Definition GetResource (id : string) : Prog (option Resource) :=
  r <- call (OpGet tableResource id) ;;
  match r with
  | None => Ret None
  | Some o => res <- assertResource o ;; Ret (Some res)
  end.

(** The closure [checkType] of [FindResources]. *)
Definition checkType (by_ : By) : option error :=
  match by_ with
  | byIDPrefix _ | byName _ | byKind _ | byCustom _ _ _
  | byCustomPrefix _ _ _ => None
  | _ => Some ErrInvalidFindBy
  end.

(** The closure [appendResult] of [FindResources], run on every object
    [tx.find] hands over: [resourceList = append(resourceList, ...)]. *)
Fixpoint appendResult (resourceList : list Resource) (objects : list StoreObject)
  : Prog (list Resource) :=
  match objects with
  | [] => Ret resourceList
  | o :: rest =>
      r <- assertResource o ;;
      appendResult (resourceList ++ [r]) rest
  end.

(** [FindResources] selects a set of resource objects and returns them; the
    list is returned with the error, whatever the error is. *)
Definition FindResources (by_ : By) : Prog (list Resource * option error) :=
  '(objects, err) <- call (OpFind tableResource by_ checkType) ;;
  resourceList <- appendResult [] objects ;;
  Ret (resourceList, err).

(** The [Save] hook: [snapshot.Resources, err = FindResources(tx, All)].  The
    snapshot is passed by pointer: the program returns it as updated. *)
Definition Save (snapshot : StoreSnapshot) : Prog (StoreSnapshot * option error) :=
  '(resources, err) <- FindResources All ;;
  Ret (set_Resources snapshot resources, err).

(** The first loop of [Restore]: [for _, r := range resources]. *)
Fixpoint deleteEach (resources : list Resource) : Prog (option error) :=
  match resources with
  | [] => Ret None
  | r :: rest =>
      err <- DeleteResource (ID r) ;;
      match err with
      | Some e => Ret (Some e)
      | None => deleteEach rest
      end
  end.

(** The second loop of [Restore]: [for _, r := range snapshot.Resources]. *)
Fixpoint createEach (resources : list Resource) : Prog (option error) :=
  match resources with
  | [] => Ret None
  | r :: rest =>
      err <- CreateResource r ;;
      match err with
      | Some e => Ret (Some e)
      | None => createEach rest
      end
  end.

(** The [Restore] hook. *)
Definition Restore (snapshot : StoreSnapshot) : Prog (option error) :=
  '(resources, err) <- FindResources All ;;
  match err with
  | Some e => Ret (Some e)
  | None =>
      err <- deleteEach resources ;;
      match err with
      | Some e => Ret (Some e)
      | None => createEach (Resources snapshot)
      end
  end.

(** The [ApplyStoreAction] hook: a type switch on the target, then a switch
    on the action kind; both fall through to [errUnknownStoreAction]. *)
Definition ApplyStoreAction (sa : StoreAction) : Prog (option error) :=
  match Target sa with
  | StoreAction_Resource obj =>
      if Z.eqb (Action sa) StoreActionKindCreate then CreateResource obj
      else if Z.eqb (Action sa) StoreActionKindUpdate then UpdateResource obj
      else if Z.eqb (Action sa) StoreActionKindRemove then DeleteResource (ID obj)
      else Ret (Some errUnknownStoreAction)
  | StoreAction_Other _ => Ret (Some errUnknownStoreAction)
  end.

(** [resourceIndexerByKind], the indexer of the [kind] index. *)
Module resourceIndexerByKind.

(** [FromObject]: [r := obj.(resourceEntry)] panics on another type; the
    key is [[]byte(r.Resource.Kind + "\x00")]. *)
Definition FromObject (obj : StoreObject)
  : outcome (bool * list byte * option error) :=
  match obj with
  | resourceEntry r =>
      let val := (Kind r ++ String "000"%char EmptyString)%string in
      Returns (true, list_byte_of_string val, None)
  | apiResource _ => Panics
  | extensionEntry _ => Panics
  end.

(** [FromArgs] hands its arguments to the package's [fromArgs], taken here
    as a parameter. *)
Definition FromArgs {arg : Type}
  (fromArgs : list arg -> list byte * option error) (args : list arg)
  : list byte * option error :=
  fromArgs args.

End resourceIndexerByKind.

(** ** The storage engine *)

(** The implementation of [Tx] lives in another file of the package; the
    store below is the engine as the specification describes it, running the
    indexers that this file registers for the table.  The table is the list
    of its rows; the index entries of a row are computed from the row, so a
    state with the same rows has the same index contents. *)
Record MemStore : Type := mkMemStore {
  rows : list Resource;
  registry : list Extension
}.

Definition hasID (id : string) (r : Resource) : bool := String.eqb (ID r) id.
Definition hasName (name : string) (r : Resource) : bool := String.eqb (Name r) name.

(** Modelled from the spec: which rows a selector selects (ID prefix, exact
    name, exact kind, exact custom attribute, custom attribute prefix). *)
Definition selects (by_ : By) (r : Resource) : bool :=
  match by_ with
  | byAll => true
  | byIDPrefix p => String.prefix p (ID r)
  | byName n => String.eqb (Name r) n
  | byKind k => String.eqb (Kind r) k
  | byCustom _ index value =>
      existsb (fun kv => String.eqb (fst kv) index && String.eqb (snd kv) value)
        (Indices r)
  | byCustomPrefix _ index value =>
      existsb (fun kv => String.eqb (fst kv) index && String.prefix value (snd kv))
        (Indices r)
  | byOther _ => false
  end.

(** Modelled from the spec: [tx.get], the row with this ID or an absent
    result. *)
Definition mem_get (s : MemStore) (table id : string) : option StoreObject :=
  if String.eqb table tableResource
  then option_map resourceEntry (find (hasID id) (rows s))
  else None.

(** Modelled from the spec: [tx.find].  The match-everything selector is
    generic: [Save] and [Restore] export the table with it, so it is not
    submitted to the table's type guard.  Every other selector is submitted
    to the guard first, and nothing is collected when the guard refuses
    it. *)
Definition mem_find (s : MemStore) (table : string) (by_ : By)
  (guard : By -> option error) : list StoreObject * option error :=
  if String.eqb table tableResource then
    match by_ with
    | byAll => (map resourceEntry (rows s), None)
    | byOther _ =>
        match guard by_ with
        | Some e => ([], Some e)
        | None => ([], Some ErrInvalidFindBy)
        end
    | _ =>
        match guard by_ with
        | Some e => ([], Some e)
        | None => (map resourceEntry (filter (selects by_) (rows s)), None)
        end
    end
  else ([], Some (ErrEngine "unknown table")).

(** Modelled from the spec: the copy of an object that the engine stores,
    objects being owned by the table that stores them.  The row type
    satisfies the storage interface by embedding [*api.Resource] and declares
    no method of its own: the copy of a [resourceEntry] is the one its
    embedded [*api.Resource] makes, a [*api.Resource], not a
    [resourceEntry]. *)
Definition CopyStoreObject (o : StoreObject) : StoreObject :=
  match o with
  | resourceEntry r => apiResource r
  | apiResource r => apiResource r
  | extensionEntry e => extensionEntry e
  end.

(** The resource an object of this table carries, wrapped or not. *)
Definition carried (o : StoreObject) : option Resource :=
  match o with
  | resourceEntry r => Some r
  | apiResource r => Some r
  | extensionEntry _ => None
  end.

(** The indexers that [init] registers with the table's schema and that are
    code of this file: the one of the [kind] index.  Those of the [id],
    [name] and [custom] indexes belong to the [api] package. *)
Definition registeredIndexers
  : list (StoreObject -> outcome (bool * list byte * option error)) :=
  [resourceIndexerByKind.FromObject].

(** Modelled from the spec: the engine keeps the index entries of a row by
    running, on the object it inserts or removes, the indexers the table
    registered; where one of them panics, the call of the engine panics. *)
Definition indexed (o : StoreObject) : bool :=
  forallb (fun indexer => match indexer o with
                          | Returns _ => true
                          | Panics => false
                          end)
          registeredIndexers.

(** Modelled from the spec: [tx.create] fails with [ErrExist] when the ID is
    already taken; otherwise it inserts a copy of the object: the copy is
    indexed by the table's indexers, and the insertion fails with [ErrExist]
    when its name, a unique index, is already present. *)
Definition mem_create (s : MemStore) (table : string) (o : StoreObject)
  : outcome (option error * MemStore) :=
  match carried o with
  | Some r =>
      if String.eqb table tableResource then
        if existsb (hasID (ID r)) (rows s) then Returns (Some ErrExist, s)
        else if indexed (CopyStoreObject o) then
          if existsb (hasName (Name r)) (rows s) then Returns (Some ErrExist, s)
          else Returns (None, {| rows := rows s ++ [r]; registry := registry s |})
        else Panics
      else Returns (Some (ErrEngine "unknown table"), s)
  | None => Returns (Some (ErrEngine "object of another table"), s)
  end.

(** Modelled from the spec: [tx.update] fails with [ErrNotExist] when no row
    has the ID; otherwise it replaces the row by a copy of the object: the
    copy is indexed by the table's indexers, and the replacement fails when
    another row holds its name. *)
Definition mem_update (s : MemStore) (table : string) (o : StoreObject)
  : outcome (option error * MemStore) :=
  match carried o with
  | Some r =>
      if String.eqb table tableResource then
        if negb (existsb (hasID (ID r)) (rows s)) then Returns (Some ErrNotExist, s)
        else if indexed (CopyStoreObject o) then
          if existsb (fun x => hasName (Name r) x && negb (hasID (ID r) x)) (rows s)
          then Returns (Some ErrExist, s)
          else Returns (None,
                        {| rows := map (fun x => if hasID (ID r) x then r else x) (rows s);
                           registry := registry s |})
        else Panics
      else Returns (Some (ErrEngine "unknown table"), s)
  | None => Returns (Some (ErrEngine "object of another table"), s)
  end.

(** Modelled from the spec: [tx.delete] fails with [ErrNotExist] when no row
    has the ID, and otherwise removes the row, a [resourceEntry] as [tx.find]
    hands it over, with the index entries the table's indexers give it. *)
Definition mem_delete (s : MemStore) (table id : string)
  : outcome (option error * MemStore) :=
  if String.eqb table tableResource then
    match find (hasID id) (rows s) with
    | Some r =>
        if indexed (resourceEntry r)
        then Returns (None, {| rows := filter (fun x => negb (hasID id x)) (rows s);
                               registry := registry s |})
        else Panics
    | None => Returns (Some ErrNotExist, s)
    end
  else Returns (Some (ErrEngine "unknown table"), s).

(** Modelled from the spec: [FindExtensions], the registry's query; by name
    it returns the extensions with exactly this name. *)
Definition mem_findExtensions (s : MemStore) (by_ : By)
  : list Extension * option error :=
  match by_ with
  | byAll => (registry s, None)
  | byName n => (filter (fun e => String.eqb (ExtName e) n) (registry s), None)
  | byIDPrefix p => (filter (fun e => String.prefix p (ExtID e)) (registry s), None)
  | _ => ([], Some ErrInvalidFindBy)
  end.

Definition memTx : Tx MemStore :=
  {| tx_get := mem_get;
     tx_find := mem_find;
     tx_create := mem_create;
     tx_update := mem_update;
     tx_delete := mem_delete;
     tx_findExtensions := mem_findExtensions |}.

(** ** The vocabulary of the specification *)

(** The error the specification calls [KindUnregistered]. *)
Definition KindUnregistered (kind : string) : error :=
  Errorf ("object kind " ++ kind ++ " is unregistered").

(** The referential integrity check in the specification's words: on the
    answer of the exact-name query, zero matches is [KindUnregistered], more
    than zero is success; a query that fails is reported as such. *)
Definition kindCheck (kind : string) (answer : list Extension * option error)
  : option error :=
  match answer with
  | (_, Some e) => Some (Wrap e "failed to query extensions")
  | ([], None) => Some (KindUnregistered kind)
  | (_ :: _, None) => None
  end.

(** A kind is registered when the registry holds an extension of exactly
    this name. *)
Definition registered (s : MemStore) (kind : string) : bool :=
  existsb (fun e => String.eqb (ExtName e) kind) (registry s).

(** The selectors the specification lists for [Find]. *)
Inductive listed : By -> Prop :=
| listed_byIDPrefix p : listed (byIDPrefix p)
| listed_byName n : listed (byName n)
| listed_byKind k : listed (byKind k)
| listed_byCustom t i v : listed (byCustom t i v)
| listed_byCustomPrefix t i v : listed (byCustomPrefix t i v).

(** A prefix match of the engine on index keys: [key] starts with [p]. *)
Fixpoint hasPrefix (key p : list byte) : bool :=
  match p, key with
  | [], _ => true
  | _ :: _, [] => false
  | b :: p', c :: key' => Byte.eqb b c && hasPrefix key' p'
  end.

(** The key the kind indexer gives a resource. *)
Definition kindKey (r : Resource) : list byte :=
  list_byte_of_string (Kind r ++ String "000"%char EmptyString).

Definition noNul (s : string) : bool :=
  negb (existsb (Byte.eqb x00) (list_byte_of_string s)).

Section RowByRow.
Context {T : Type} (tx : Tx T).

(** What [Restore] does with one stored row, and the calls it takes. *)
Definition deleteRow (r : Resource) (s : T) : outcome (option error * T) :=
  tx_delete tx s tableResource (ID r).

Definition deleteCalls (r : Resource) (s : T) : list Op :=
  [OpDelete tableResource (ID r)].

(** What [Restore] does with one row of the snapshot: the referential check,
    then the insertion when the check passes. *)
Definition createRow (r : Resource) (s : T) : outcome (option error * T) :=
  match kindCheck (Kind r) (tx_findExtensions tx s (ByName (Kind r))) with
  | Some e => Returns (Some e, s)
  | None => tx_create tx s tableResource (resourceEntry r)
  end.

Definition createCalls (r : Resource) (s : T) : list Op :=
  OpFindExtensions (ByName (Kind r)) ::
  match kindCheck (Kind r) (tx_findExtensions tx s (ByName (Kind r))) with
  | Some _ => []
  | None => [OpCreate tableResource (resourceEntry r)]
  end.

(** Rows are handled one at a time, in order, up to the first error:
    [RowByRow step calls l s done cs res] says that from state [s] the rows
    [done] of [l] were handled with the calls [cs], ending as [res]: the
    error of the last one with the final state, or the panic of the last one;
    the rows after [done] are left alone. *)
Inductive RowByRow (step : Resource -> T -> outcome (option error * T))
  (calls : Resource -> T -> list Op)
  : list Resource -> T -> list Resource -> list Op
    -> outcome (option error * T) -> Prop :=
| RowByRow_end s : RowByRow step calls [] s [] [] (Returns (None, s))
| RowByRow_stop r rest s e s' :
    step r s = Returns (Some e, s') ->
    RowByRow step calls (r :: rest) s [r] (calls r s) (Returns (Some e, s'))
| RowByRow_panic r rest s :
    step r s = Panics ->
    RowByRow step calls (r :: rest) s [r] (calls r s) Panics
| RowByRow_next r rest s s1 done cs res :
    step r s = Returns (None, s1) ->
    RowByRow step calls rest s1 done cs res ->
    RowByRow step calls (r :: rest) s (r :: done) (calls r s ++ cs) res.


(** [Restored s current snapshotRows cs res]: from state [s], the stored
    rows [current] are deleted row by row, then the rows of the snapshot are
    created row by row, with the calls [cs] (the export first), ending as
    [res], the error with the final state, or a panic; a deletion that fails
    or panics ends it before any creation. *)
Inductive Restored (s : T) (current snapshotRows : list Resource)
  : list Op -> outcome (option error * T) -> Prop :=
| Restored_delete_failed deleted cs e s1 :
    RowByRow deleteRow deleteCalls current s deleted cs (Returns (Some e, s1)) ->
    Restored s current snapshotRows
      (OpFind tableResource All checkType :: cs) (Returns (Some e, s1))
| Restored_delete_panicked deleted cs :
    RowByRow deleteRow deleteCalls current s deleted cs Panics ->
    Restored s current snapshotRows
      (OpFind tableResource All checkType :: cs) Panics
| Restored_deleted cs1 s1 created cs2 res :
    RowByRow deleteRow deleteCalls current s current cs1 (Returns (None, s1)) ->
    RowByRow createRow createCalls snapshotRows s1 created cs2 res ->
    Restored s current snapshotRows
      (OpFind tableResource All checkType :: cs1 ++ cs2) res.

End RowByRow.

(** ** Sample values *)

Definition volume : Extension := {| ExtID := "e1"; ExtName := "volume" |}.

Definition r1 : Resource :=
  {| ID := "r1"; Name := "vol-a"; Kind := "volume"; Indices := [] |}.
Definition r2 : Resource :=
  {| ID := "r2"; Name := "vol-b"; Kind := "volume"; Indices := [("tier", "gold")] |}.
Definition r3 : Resource :=
  {| ID := "r3"; Name := "vol-c"; Kind := "gadget"; Indices := [] |}.

Definition emptyStore : MemStore := {| rows := []; registry := [volume] |}.
Definition oneRow : MemStore := {| rows := [r1]; registry := [volume] |}.
Definition bareStore : MemStore := {| rows := []; registry := [] |}.

Definition snapshot21 : StoreSnapshot :=
  {| Extensions := [volume]; Resources := [r2; r1] |}.
Definition snapshot2 : StoreSnapshot :=
  {| Extensions := [volume]; Resources := [r2] |}.
Definition snapshot3 : StoreSnapshot :=
  {| Extensions := [volume]; Resources := [r3; r2] |}.

(** Two kinds for the kind index: ["a"], and ["a"] followed by a null byte
    and ["b"]. *)
Definition kindA : Resource :=
  {| ID := "k1"; Name := "short"; Kind := "a"; Indices := [] |}.
Definition kindANulB : Resource :=
  {| ID := "k2"; Name := "long";
     Kind := String "a" (String "000" (String "b" EmptyString));
     Indices := [] |}.

(** ** Further vocabulary *)

(** The resources inside the objects [tx.find] hands over, in the same
    order, when every object is a row of this table. *)
Fixpoint unwrapResources (objects : list StoreObject) : option (list Resource) :=
  match objects with
  | [] => Some []
  | resourceEntry r :: rest => option_map (cons r) (unwrapResources rest)
  | apiResource _ :: _ => None
  | extensionEntry _ :: _ => None
  end.

(** The object is a row of this table, on which the type assertion to
    [resourceEntry] holds. *)
Definition isResourceEntry (o : StoreObject) : bool :=
  match o with
  | resourceEntry _ => true
  | _ => false
  end.

(** The state is the one before, when the run returned. *)
Definition keepsState {A T : Type} (s : T) (o : outcome (A * T)) : Prop :=
  match o with
  | Returns (_, s') => s' = s
  | Panics => True
  end.

(** The calls the functions of this file are seen to make.  A storage call
    (get, find, create, update, delete) names the table [resource], and a
    written object is a [resourceEntry].  The one access to another table is
    the registry query [FindExtensions], a read of the extension table on the
    same transaction, and only as a query by name. *)
Definition resourceCall (op : Op) : bool :=
  match op with
  | OpGet t _ | OpFind t _ _ | OpDelete t _ => String.eqb t tableResource
  | OpCreate t o | OpUpdate t o => String.eqb t tableResource && isResourceEntry o
  | OpFindExtensions (byName _) => true
  | OpFindExtensions _ => false
  end.

(** A call that reads the extension table. *)
Definition registryRead (op : Op) : bool :=
  match op with
  | OpFindExtensions _ => true
  | _ => false
  end.

(** Reading a kind back from a key of the kind index: the bytes before the
    last one. *)
Definition kindOfKey (key : list byte) : string :=
  string_of_list_byte (removelast key).

(** A transaction whose reads go wrong: the export of the table is
    interrupted after a row, the other selections hand over a row of the
    registry's table, and the registry query fails. *)
Definition faultyTx : Tx MemStore :=
  {| tx_get := mem_get;
     tx_find := fun s table by_ guard =>
       match by_ with
       | byAll => ([resourceEntry r1], Some (ErrEngine "scan interrupted"))
       | _ => ([resourceEntry r1; extensionEntry volume], None)
       end;
     tx_create := mem_create;
     tx_update := mem_update;
     tx_delete := mem_delete;
     tx_findExtensions := fun s by_ =>
       ([volume], Some (ErrEngine "registry unavailable")) |}.

(** ** Running programs *)

Section Theory.
Context {T : Type} (tx : Tx T).

Lemma run_bind {A B : Type} (p : Prog A) (f : A -> Prog B) (s : T) :
  run tx (bind p f) s =
  match run tx p s with
  | Returns (a, s') => run tx (f a) s'
  | Panics => Panics
  end.
Proof.
  revert s; induction p as [a | | op k IH]; intro s; simpl.
  - reflexivity.
  - reflexivity.
  - destruct (exec tx op s) as [[x s'] | ]; [apply IH | reflexivity].
Qed.

Lemma trace_bind {A B : Type} (p : Prog A) (f : A -> Prog B) (s : T) :
  trace tx (bind p f) s =
  trace tx p s ++
  match run tx p s with
  | Returns (a, s') => trace tx (f a) s'
  | Panics => []
  end.
Proof.
  revert s; induction p as [a | | op k IH]; intro s; simpl.
  - reflexivity.
  - reflexivity.
  - f_equal. destruct (exec tx op s) as [[x s'] | ]; [apply IH | reflexivity].
Qed.

(** *** The check and the three mutations *)

Lemma run_confirmExtension (r : Resource) (s : T) :
  run tx (confirmExtension r) s =
  Returns (kindCheck (Kind r) (tx_findExtensions tx s (ByName (Kind r))), s).
Proof.
  unfold confirmExtension; simpl.
  destruct (tx_findExtensions tx s (ByName (Kind r))) as [[ | x exts] [e | ]];
    reflexivity.
Qed.

Lemma trace_confirmExtension (r : Resource) (s : T) :
  trace tx (confirmExtension r) s = [OpFindExtensions (ByName (Kind r))].
Proof.
  unfold confirmExtension; simpl.
  destruct (tx_findExtensions tx s (ByName (Kind r))) as [[ | x exts] [e | ]];
    reflexivity.
Qed.

Lemma run_CreateResource (r : Resource) (s : T) :
  run tx (CreateResource r) s = createRow tx r s.
Proof.
  unfold CreateResource, createRow.
  rewrite run_bind, run_confirmExtension.
  destruct (kindCheck _ _); simpl.
  - reflexivity.
  - destruct (tx_create tx s tableResource (resourceEntry r)) as [[err s'] | ];
      reflexivity.
Qed.

Lemma trace_CreateResource (r : Resource) (s : T) :
  trace tx (CreateResource r) s = createCalls tx r s.
Proof.
  unfold CreateResource, createCalls.
  rewrite trace_bind, run_confirmExtension, trace_confirmExtension.
  destruct (kindCheck _ _); simpl; [reflexivity | ].
  destruct (tx_create tx s tableResource (resourceEntry r)) as [[err s'] | ];
    reflexivity.
Qed.

Lemma run_UpdateResource (r : Resource) (s : T) :
  run tx (UpdateResource r) s =
  match kindCheck (Kind r) (tx_findExtensions tx s (ByName (Kind r))) with
  | Some e => Returns (Some e, s)
  | None => tx_update tx s tableResource (resourceEntry r)
  end.
Proof.
  unfold UpdateResource.
  rewrite run_bind, run_confirmExtension.
  destruct (kindCheck _ _); simpl.
  - reflexivity.
  - destruct (tx_update tx s tableResource (resourceEntry r)) as [[err s'] | ];
      reflexivity.
Qed.

Lemma trace_UpdateResource (r : Resource) (s : T) :
  trace tx (UpdateResource r) s =
  OpFindExtensions (ByName (Kind r)) ::
  match kindCheck (Kind r) (tx_findExtensions tx s (ByName (Kind r))) with
  | Some _ => []
  | None => [OpUpdate tableResource (resourceEntry r)]
  end.
Proof.
  unfold UpdateResource.
  rewrite trace_bind, run_confirmExtension, trace_confirmExtension.
  destruct (kindCheck _ _); simpl; [reflexivity | ].
  destruct (tx_update tx s tableResource (resourceEntry r)) as [[err s'] | ];
    reflexivity.
Qed.

Lemma run_DeleteResource (id : string) (s : T) :
  run tx (DeleteResource id) s = tx_delete tx s tableResource id.
Proof.
  unfold DeleteResource; simpl.
  destruct (tx_delete tx s tableResource id) as [[err s'] | ]; reflexivity.
Qed.

Lemma trace_DeleteResource (id : string) (s : T) :
  trace tx (DeleteResource id) s = [OpDelete tableResource id].
Proof.
  unfold DeleteResource; simpl.
  destruct (tx_delete tx s tableResource id) as [[err s'] | ]; reflexivity.
Qed.

(** *** Find *)

Lemma appendResult_resources (acc rs : list Resource) :
  appendResult acc (map resourceEntry rs) = Ret (acc ++ rs).
Proof.
  revert acc; induction rs as [ | r rs IH]; intro acc; simpl.
  - now rewrite app_nil_r.
  - rewrite IH, <- app_assoc. reflexivity.
Qed.

Lemma run_FindResources (by_ : By) (s : T) (rs : list Resource)
  (err : option error) :
  tx_find tx s tableResource by_ checkType = (map resourceEntry rs, err) ->
  run tx (FindResources by_) s = Returns ((rs, err), s).
Proof.
  intro H. unfold FindResources; simpl. rewrite H; simpl.
  rewrite run_bind, appendResult_resources. reflexivity.
Qed.

Lemma trace_FindResources (by_ : By) (s : T) (rs : list Resource)
  (err : option error) :
  tx_find tx s tableResource by_ checkType = (map resourceEntry rs, err) ->
  trace tx (FindResources by_) s = [OpFind tableResource by_ checkType].
Proof.
  intro H. unfold FindResources; simpl. rewrite H; simpl.
  rewrite trace_bind, appendResult_resources. reflexivity.
Qed.

End Theory.

(** ** The hooks of the table *)

Section Hooks.
Context {T : Type} (tx : Tx T).

(** *** Row by row *)

Lemma RowByRow_prefix step calls (l : list Resource) (s : T) done cs res :
  RowByRow step calls l s done cs res -> exists rest, l = done ++ rest.
Proof.
  induction 1 as [s | r rest s e s' Hstep | r rest s Hstep
                 | r rest s s1 done cs res Hstep Hrest IH].
  - exists []; reflexivity.
  - exists rest; reflexivity.
  - exists rest; reflexivity.
  - destruct IH as [rest' ->]. exists rest'; reflexivity.
Qed.

Lemma RowByRow_all step calls (l : list Resource) (s : T) done cs res s' :
  RowByRow step calls l s done cs res -> res = Returns (None, s') -> done = l.
Proof.
  induction 1 as [s | r rest s e s1 Hstep | r rest s Hstep
                 | r rest s s1 done cs res Hstep Hrest IH];
    intro Hres.
  - reflexivity.
  - discriminate.
  - discriminate.
  - now rewrite IH.
Qed.

(** Where no step panics, the rows end in an error or in success, with a
    state. *)
Lemma RowByRow_returns step calls (l : list Resource) (s : T) done cs res :
  (forall r s0, step r s0 <> Panics) ->
  RowByRow step calls l s done cs res ->
  exists err s', res = Returns (err, s').
Proof.
  intro Hsteps.
  induction 1 as [s | r rest s e s' Hstep | r rest s Hstep
                 | r rest s s1 done cs res Hstep Hrest IH].
  - now exists None, s.
  - now exists (Some e), s'.
  - now elim (Hsteps r s).
  - exact IH.
Qed.




Lemma deleteEach_RowByRow (l : list Resource) (s : T) :
  exists done cs res,
    RowByRow (deleteRow tx) (@deleteCalls T) l s done cs res /\
    run tx (deleteEach l) s = res /\
    trace tx (deleteEach l) s = cs.
Proof.
  revert s; induction l as [ | r rest IH]; intro s.
  - exists [], [], (Returns (None, s)). repeat split. constructor.
  - cbn [deleteEach].
    rewrite run_bind, trace_bind, run_DeleteResource, trace_DeleteResource.
    destruct (tx_delete tx s tableResource (ID r)) as [[[e | ] s1] | ] eqn:Hstep.
    + exists [r], (deleteCalls r s), (Returns (Some e, s1)). repeat split.
      now apply RowByRow_stop.
    + destruct (IH s1) as (done & cs & res & Hrows & Hrun & Htrace).
      exists (r :: done), (deleteCalls r s ++ cs), res. repeat split.
      * eapply RowByRow_next; eauto.
      * exact Hrun.
      * simpl. now rewrite Htrace.
    + exists [r], (deleteCalls r s), Panics. repeat split.
      now apply RowByRow_panic.
Qed.

Lemma createEach_RowByRow (l : list Resource) (s : T) :
  exists done cs res,
    RowByRow (createRow tx) (createCalls tx) l s done cs res /\
    run tx (createEach l) s = res /\
    trace tx (createEach l) s = cs.
Proof.
  revert s; induction l as [ | r rest IH]; intro s.
  - exists [], [], (Returns (None, s)). repeat split. constructor.
  - cbn [createEach].
    rewrite run_bind, trace_bind, run_CreateResource, trace_CreateResource.
    destruct (createRow tx r s) as [[[e | ] s1] | ] eqn:Hstep.
    + exists [r], (createCalls tx r s), (Returns (Some e, s1)). repeat split.
      * now apply RowByRow_stop.
      * simpl. now rewrite app_nil_r.
    + destruct (IH s1) as (done & cs & res & Hrows & Hrun & Htrace).
      exists (r :: done), (createCalls tx r s ++ cs), res. repeat split.
      * eapply RowByRow_next; eauto.
      * exact Hrun.
      * now rewrite Htrace.
    + exists [r], (createCalls tx r s), Panics. repeat split.
      * now apply RowByRow_panic.
      * now rewrite app_nil_r.
Qed.

(** *** Restore *)


(** With a storage whose deletions and insertions return, Restore returns:
    the error of the first failure, or success, with the final state. *)
Lemma Restored_returns (s : T) (current snapshotRows : list Resource)
  (cs : list Op) (res : outcome (option error * T)) :
  (forall r s0, deleteRow tx r s0 <> Panics) ->
  (forall r s0, createRow tx r s0 <> Panics) ->
  Restored tx s current snapshotRows cs res ->
  exists err s', res = Returns (err, s').
Proof.
  intros Hdel Hcre H.
  destruct H as [deleted cs1 e s1 H1 | deleted cs1 H1 | cs1 s1 created cs2 res H1 H2].
  - now exists (Some e), s1.
  - destruct (RowByRow_returns Hdel H1) as (err & s' & Hres). discriminate.
  - exact (RowByRow_returns Hcre H2).
Qed.

(** When the export itself fails, Restore returns its error and makes no
    other call. *)
Lemma Restore_export_failed (s : T) (snapshot : StoreSnapshot)
  (partial : list Resource) (e : error) :
  tx_find tx s tableResource All checkType = (map resourceEntry partial, Some e) ->
  run tx (Restore snapshot) s = Returns (Some e, s) /\
  trace tx (Restore snapshot) s = [OpFind tableResource All checkType].
Proof.
  intro Hfind. unfold Restore.
  rewrite run_bind, trace_bind.
  rewrite (run_FindResources tx All s partial Hfind).
  rewrite (trace_FindResources tx All s partial Hfind).
  split; reflexivity.
Qed.

End Hooks.

Section Operations.
Context {T : Type} (tx : Tx T).

(** *** Save *)

(** C6, as the code has it.  Save assigns the snapshot's Resources field:
    when the export of the table (Find with the match-everything selector)
    answers the rows [exported] with the error [err], Save leaves in the
    field exactly [exported], the entries held before being dropped and the
    other fields kept, and returns [err], the error of the read; it makes no
    other call and the state of the transaction is as before. *)
Theorem Save_replaces_Resources (s : T) (snapshot : StoreSnapshot)
  (exported : list Resource) (err : option error) :
  tx_find tx s tableResource All checkType = (map resourceEntry exported, err) ->
  run tx (Save snapshot) s =
    Returns (({| Extensions := Extensions snapshot; Resources := exported |}, err), s) /\
  trace tx (Save snapshot) s = [OpFind tableResource All checkType].
Proof.
  intro Hfind. unfold Save. rewrite run_bind, trace_bind.
  rewrite (run_FindResources tx All s exported Hfind).
  rewrite (trace_FindResources tx All s exported Hfind).
  split; reflexivity.
Qed.

(** *** ApplyStoreAction *)

(** C2.  On a Resource target, ApplyStoreAction is the call of
    CreateResource on the payload for the kind Create, of UpdateResource on
    the payload for Update and of DeleteResource on the payload's ID for
    Remove: the same calls on the transaction, the same result.  On any other
    target it returns the UnknownAction error, without a call. *)
Theorem ApplyStoreAction_dispatch (obj : Resource) :
  ApplyStoreAction {| Action := StoreActionKindCreate;
                      Target := StoreAction_Resource obj |} = CreateResource obj /\
  ApplyStoreAction {| Action := StoreActionKindUpdate;
                      Target := StoreAction_Resource obj |} = UpdateResource obj /\
  ApplyStoreAction {| Action := StoreActionKindRemove;
                      Target := StoreAction_Resource obj |} = DeleteResource (ID obj) /\
  forall (kind : StoreActionKind) (target : string) (s : T),
    run tx (ApplyStoreAction {| Action := kind; Target := StoreAction_Other target |}) s
      = Returns (Some errUnknownStoreAction, s) /\
    trace tx (ApplyStoreAction {| Action := kind; Target := StoreAction_Other target |}) s
      = [].
Proof.
  repeat split; reflexivity.
Qed.

(** C10.  On a Resource target with an action kind that is none of Create,
    Update and Remove, ApplyStoreAction makes no call on the transaction,
    leaves its state as it is, and returns the UnknownAction error, the one
    it returns for a target of another table. *)
Theorem ApplyStoreAction_unknown_kind (obj : Resource) (kind : StoreActionKind)
  (target : string) (s : T) :
  kind <> StoreActionKindCreate ->
  kind <> StoreActionKindUpdate ->
  kind <> StoreActionKindRemove ->
  run tx (ApplyStoreAction {| Action := kind; Target := StoreAction_Resource obj |}) s
    = Returns (Some errUnknownStoreAction, s) /\
  trace tx (ApplyStoreAction {| Action := kind; Target := StoreAction_Resource obj |}) s
    = [] /\
  ApplyStoreAction {| Action := kind; Target := StoreAction_Resource obj |}
    = ApplyStoreAction {| Action := kind; Target := StoreAction_Other target |}.
Proof.
  intros Hc Hu Hr. unfold ApplyStoreAction; simpl.
  destruct (Z.eqb_spec kind StoreActionKindCreate) as [E | _]; [contradiction | ].
  destruct (Z.eqb_spec kind StoreActionKindUpdate) as [E | _]; [contradiction | ].
  destruct (Z.eqb_spec kind StoreActionKindRemove) as [E | _]; [contradiction | ].
  repeat split.
Qed.

(** *** The referential integrity check *)

(** C4.  When the extension query for the resource's Kind matches nothing,
    Create fails with the KindUnregistered error after that query alone: no
    create, update or delete is called, and the state of the transaction,
    rows and index entries, is the one before the call. *)
Theorem Create_unregistered_kind (r : Resource) (s : T) :
  tx_findExtensions tx s (ByName (Kind r)) = ([], None) ->
  run tx (CreateResource r) s = Returns (Some (KindUnregistered (Kind r)), s) /\
  trace tx (CreateResource r) s = [OpFindExtensions (ByName (Kind r))] /\
  existsb is_write (trace tx (CreateResource r) s) = false.
Proof.
  intro Hq.
  rewrite run_CreateResource, trace_CreateResource.
  unfold createRow, createCalls. rewrite Hq. simpl.
  repeat split.
Qed.

(** C5.  The check is the exact-name extension query on the object's Kind:
    it fails with KindUnregistered on zero matches and succeeds on one or
    more.  Create and Update both start with it, and call the create or the
    update of the storage after it and only when it succeeded, ending as that
    call ends; when it failed they return its error with the state
    untouched.  Delete calls the delete of the storage and nothing else: it
    never makes the check. *)
Theorem check_on_Create_Update_not_Delete (r : Resource) (id : string) (s : T) :
  let check := kindCheck (Kind r) (tx_findExtensions tx s (ByName (Kind r))) in
  (run tx (confirmExtension r) s = Returns (check, s) /\
   trace tx (confirmExtension r) s = [OpFindExtensions (ByName (Kind r))]) /\
  (run tx (CreateResource r) s =
     match check with
     | Some e => Returns (Some e, s)
     | None => tx_create tx s tableResource (resourceEntry r)
     end /\
   trace tx (CreateResource r) s =
     OpFindExtensions (ByName (Kind r)) ::
     match check with
     | Some _ => []
     | None => [OpCreate tableResource (resourceEntry r)]
     end) /\
  (run tx (UpdateResource r) s =
     match check with
     | Some e => Returns (Some e, s)
     | None => tx_update tx s tableResource (resourceEntry r)
     end /\
   trace tx (UpdateResource r) s =
     OpFindExtensions (ByName (Kind r)) ::
     match check with
     | Some _ => []
     | None => [OpUpdate tableResource (resourceEntry r)]
     end) /\
  (run tx (DeleteResource id) s = tx_delete tx s tableResource id /\
   trace tx (DeleteResource id) s = [OpDelete tableResource id] /\
   existsb is_check (trace tx (DeleteResource id) s) = false).
Proof.
  intro check. unfold check.
  rewrite run_confirmExtension, trace_confirmExtension.
  rewrite run_CreateResource, trace_CreateResource.
  rewrite run_UpdateResource, trace_UpdateResource.
  rewrite run_DeleteResource, trace_DeleteResource.
  repeat split.
Qed.

End Operations.

(** ** The table on the storage engine *)

Lemma filter_all {A : Type} (l : list A) : filter (fun _ => true) l = l.
Proof.
  induction l as [ | x l IH]; simpl; [reflexivity | now rewrite IH].
Qed.

Lemma kindCheck_registered (s : MemStore) (kind : string) :
  kindCheck kind (mem_findExtensions s (ByName kind)) =
  if registered s kind then None else Some (KindUnregistered kind).
Proof.
  unfold registered, mem_findExtensions, ByName.
  induction (registry s) as [ | e l IH]; simpl.
  - reflexivity.
  - destruct (String.eqb (ExtName e) kind); simpl; [reflexivity | exact IH].
Qed.

Lemma createRow_mem (s : MemStore) (r : Resource) :
  createRow memTx r s =
  if registered s (Kind r) then mem_create s tableResource (resourceEntry r)
  else Returns (Some (KindUnregistered (Kind r)), s).
Proof.
  unfold createRow.
  change (tx_findExtensions memTx s (ByName (Kind r)))
    with (mem_findExtensions s (ByName (Kind r))).
  rewrite kindCheck_registered.
  destruct (registered s (Kind r)); reflexivity.
Qed.

Lemma checkType_listed (by_ : By) : checkType by_ = None <-> listed by_.
Proof.
  split.
  - destruct by_; simpl; intro H; try discriminate; constructor.
  - destruct 1; reflexivity.
Qed.

Lemma mem_find_listed (s : MemStore) (by_ : By) :
  listed by_ ->
  mem_find s tableResource by_ checkType =
  (map resourceEntry (filter (selects by_) (rows s)), None).
Proof. destruct 1; reflexivity. Qed.

Lemma mem_find_refused (s : MemStore) (by_ : By) :
  by_ <> All -> ~ listed by_ ->
  mem_find s tableResource by_ checkType =
  (map resourceEntry [], Some ErrInvalidFindBy).
Proof.
  intros Hall Hlisted.
  destruct by_; try reflexivity;
    solve [ now elim Hall | elim Hlisted; constructor ].
Qed.

(** C3.  What the code does where Create should succeed.  For every
    resource whose Kind is the name of a registered extension and whose ID
    and Name are held by no row, CreateResource passes the check and hands
    [resourceEntry{r}] to the create of the storage.  The copy the storage
    inserts is the [*api.Resource] inside, not a [resourceEntry], and the
    kind indexer of the table, which asserts a [resourceEntry], panics on it:
    Create panics after the check and the create call, and nothing is
    stored.  With the ID already held by a row, Create of a resource of a
    registered kind does fail with the AlreadyExists error. *)
Theorem Create_panics_in_kind_indexer (s : MemStore) (r : Resource) :
  registered s (Kind r) = true ->
  existsb (hasID (ID r)) (rows s) = false ->
  existsb (hasName (Name r)) (rows s) = false ->
  resourceIndexerByKind.FromObject (CopyStoreObject (resourceEntry r)) = Panics /\
  run memTx (CreateResource r) s = Panics /\
  trace memTx (CreateResource r) s =
    [OpFindExtensions (ByName (Kind r)); OpCreate tableResource (resourceEntry r)] /\
  forall s' r', existsb (hasID (ID r')) (rows s') = true ->
    registered s' (Kind r') = true ->
    run memTx (CreateResource r') s' = Returns (Some ErrExist, s').
Proof.
  intros Hkind Hid Hname. split; [reflexivity | ]. split; [ | split].
  - rewrite run_CreateResource, createRow_mem, Hkind.
    unfold mem_create; simpl. now rewrite Hid.
  - rewrite trace_CreateResource. unfold createCalls.
    change (tx_findExtensions memTx s (ByName (Kind r)))
      with (mem_findExtensions s (ByName (Kind r))).
    now rewrite kindCheck_registered, Hkind.
  - intros s' r' Hheld Hkind'.
    rewrite run_CreateResource, createRow_mem, Hkind'.
    unfold mem_create; simpl. now rewrite Hheld.
Qed.

(** C8, as the code has it.  On the store of the specification: for every
    ID held by no row, Update of a resource with that ID fails and leaves the
    rows as they are; the error is NotFound when the resource's Kind is
    registered, and KindUnregistered when it is not, the check coming
    first. *)
Theorem Update_absent (s : MemStore) (r : Resource) :
  existsb (hasID (ID r)) (rows s) = false ->
  run memTx (UpdateResource r) s =
  Returns (Some (if registered s (Kind r) then ErrNotExist
                 else KindUnregistered (Kind r)), s).
Proof.
  intro Hid. rewrite run_UpdateResource.
  change (tx_findExtensions memTx s (ByName (Kind r)))
    with (mem_findExtensions s (ByName (Kind r))).
  rewrite kindCheck_registered.
  destruct (registered s (Kind r)).
  - simpl. unfold mem_update; simpl. now rewrite Hid.
  - reflexivity.
Qed.

(** C7, as the code has it.  The type guard FindResources hands to the
    transaction accepts the five selectors by-ID-prefix, by-name, by-kind,
    by-custom-attribute and by-custom-attribute-prefix and no other.  On the
    store of the specification, Find accepts the match-everything selector,
    which is not submitted to the guard, and returns every row; it accepts
    the five and returns the rows they select; for every other selector it
    fails with InvalidQuery and has collected nothing. *)
Theorem FindResources_selectors (s : MemStore) (by_ : By) :
  (checkType by_ = None <-> listed by_) /\
  run memTx (FindResources All) s = Returns ((rows s, None), s) /\
  (listed by_ ->
   run memTx (FindResources by_) s =
   Returns ((filter (selects by_) (rows s), None), s)) /\
  (by_ <> All -> ~ listed by_ ->
   run memTx (FindResources by_) s = Returns (([], Some ErrInvalidFindBy), s)).
Proof.
  split; [apply checkType_listed | ].
  split; [ | split].
  - now apply run_FindResources.
  - intro H. apply run_FindResources. simpl. now apply mem_find_listed.
  - intros Hall Hlisted. apply run_FindResources. simpl.
    now apply mem_find_refused.
Qed.

(** ** The kind index *)

Lemma list_byte_of_string_cons (a : ascii) (k : string) :
  list_byte_of_string (String a k) = byte_of_ascii a :: list_byte_of_string k.
Proof. reflexivity. Qed.

Lemma byte_of_ascii_inj (a b : ascii) :
  byte_of_ascii a = byte_of_ascii b -> a = b.
Proof.
  intro H. rewrite <- (ascii_of_byte_of_ascii a), H.
  apply ascii_of_byte_of_ascii.
Qed.

Lemma noNul_cons (a : ascii) (k : string) :
  noNul (String a k) = true ->
  Byte.eqb x00 (byte_of_ascii a) = false /\ noNul k = true.
Proof.
  unfold noNul. rewrite list_byte_of_string_cons. cbn [existsb].
  rewrite negb_orb. intro H. apply andb_true_iff in H as [Ha Hk].
  split; [now apply negb_true_iff | exact Hk].
Qed.

Lemma terminated_prefix (k q : string) :
  noNul k = true ->
  hasPrefix (list_byte_of_string (k ++ String "000" EmptyString))
            (list_byte_of_string (q ++ String "000" EmptyString)) = true ->
  q = k.
Proof.
  revert k; induction q as [ | a q IH]; intros [ | c k] Hnul H.
  - reflexivity.
  - apply noNul_cons in Hnul as [Hc _].
    cbn [append] in H. rewrite !list_byte_of_string_cons in H.
    cbn [hasPrefix] in H. apply andb_true_iff in H as [H _].
    change (byte_of_ascii "000") with x00 in H. congruence.
  - cbn [append] in H. rewrite !list_byte_of_string_cons in H.
    cbn [hasPrefix] in H. apply andb_true_iff in H as [_ H].
    destruct q; discriminate.
  - apply noNul_cons in Hnul as [_ Hk].
    cbn [append] in H. rewrite !list_byte_of_string_cons in H.
    cbn [hasPrefix] in H. apply andb_true_iff in H as [Hac H].
    apply Byte.byte_dec_bl, byte_of_ascii_inj in Hac. subst c.
    f_equal. now apply IH.
Qed.

(** C9, as the code has it.  For every resource the kind indexer returns,
    as a function of the object alone, the key made of the bytes of the Kind
    followed by a null byte.  When the Kind of a stored resource holds no
    null byte, a prefix match with the key of another kind selects it only if
    the two kinds are the same: a kind that is a proper prefix of it does not
    match. *)
Theorem kind_key_terminated (r q : Resource) :
  resourceIndexerByKind.FromObject (resourceEntry r) =
    Returns (true, list_byte_of_string (Kind r ++ String "000" EmptyString), None) /\
  (noNul (Kind r) = true ->
   hasPrefix (kindKey r) (kindKey q) = true ->
   Kind q = Kind r).
Proof.
  split; [reflexivity | ].
  intros Hnul H. now apply terminated_prefix.
Qed.

(** ** The properties on sample stores *)

(** With [r1] stored and the kind ["volume"] registered, creating a second
    resource under the ID of [r1] fails with AlreadyExists, and the kind
    query returns [r1] alone. *)
Example scenario_volume :
  run memTx
    (err <- CreateResource {| ID := "r1"; Name := "vol-z"; Kind := "volume";
                              Indices := [] |} ;;
     found <- FindResources (byKind "volume") ;;
     Ret (err, found))
    oneRow
  = Returns ((Some ErrExist, ([r1], None)), oneRow).
Proof. reflexivity. Qed.

(** A Restore that meets an unregistered kind: [r1] is deleted, the check of
    [r3] fails, and the row after it is not touched. *)
Example Restore_stops_at_first_error :
  run memTx (Restore snapshot3) oneRow =
    Returns (Some (KindUnregistered "gadget"),
             {| rows := []; registry := [volume] |}) /\
  trace memTx (Restore snapshot3) oneRow =
    [OpFind tableResource All checkType;
     OpDelete tableResource "r1";
     OpFindExtensions (ByName "gadget")].
Proof. split; reflexivity. Qed.

(** A Restore that reaches an insertion: [r1] is deleted, the check of [r2]
    passes, and the insertion panics in the kind indexer. *)
Example Restore_panics_at_first_insertion :
  run memTx (Restore snapshot21) oneRow = Panics /\
  trace memTx (Restore snapshot21) oneRow =
    [OpFind tableResource All checkType;
     OpDelete tableResource "r1";
     OpFindExtensions (ByName "volume");
     OpCreate tableResource (resourceEntry r2)].
Proof. split; reflexivity. Qed.

(** An object of another table under a type assertion of this one. *)
Example assertion_on_other_entry :
  appendResult [] [resourceEntry r1; extensionEntry volume] = Panic /\
  resourceIndexerByKind.FromObject (extensionEntry volume) = Panics /\
  resourceIndexerByKind.FromObject (apiResource r1) = Panics.
Proof. repeat split; reflexivity. Qed.


Lemma Create_panics_in_kind_indexer_witness :
  resourceIndexerByKind.FromObject (CopyStoreObject (resourceEntry r1)) = Panics /\
  run memTx (CreateResource r1) emptyStore = Panics /\
  trace memTx (CreateResource r1) emptyStore =
    [OpFindExtensions (ByName (Kind r1)); OpCreate tableResource (resourceEntry r1)] /\
  forall s' r', existsb (hasID (ID r')) (rows s') = true ->
    registered s' (Kind r') = true ->
    run memTx (CreateResource r') s' = Returns (Some ErrExist, s').
Proof.
  apply (Create_panics_in_kind_indexer emptyStore r1); reflexivity.
Defined.

Lemma Create_unregistered_kind_witness :
  run memTx (CreateResource r3) emptyStore =
    Returns (Some (KindUnregistered "gadget"), emptyStore) /\
  trace memTx (CreateResource r3) emptyStore = [OpFindExtensions (ByName "gadget")] /\
  existsb is_write (trace memTx (CreateResource r3) emptyStore) = false.
Proof.
  apply (Create_unregistered_kind memTx r3 emptyStore). reflexivity.
Defined.

Lemma Save_replaces_Resources_witness :
  run memTx (Save snapshot2) oneRow =
    Returns (({| Extensions := [volume]; Resources := [r1] |}, None), oneRow) /\
  trace memTx (Save snapshot2) oneRow = [OpFind tableResource All checkType].
Proof.
  apply (Save_replaces_Resources memTx oneRow snapshot2 [r1] (err := None)).
  reflexivity.
Defined.

Lemma FindResources_selectors_witness :
  run memTx (FindResources (byKind "volume")) oneRow = Returns (([r1], None), oneRow) /\
  run memTx (FindResources (byOther "byService")) oneRow =
    Returns (([], Some ErrInvalidFindBy), oneRow).
Proof.
  split.
  - apply (proj1 (proj2 (proj2 (FindResources_selectors oneRow (byKind "volume"))))).
    constructor.
  - apply (proj2 (proj2 (proj2 (FindResources_selectors oneRow (byOther "byService"))))).
    + discriminate.
    + intro H; inversion H.
Defined.

Lemma Update_absent_witness :
  run memTx (UpdateResource r1) emptyStore = Returns (Some ErrNotExist, emptyStore).
Proof.
  apply (Update_absent emptyStore r1). reflexivity.
Defined.

Lemma kind_key_terminated_witness :
  noNul (Kind r1) = true /\
  hasPrefix (kindKey r1) (kindKey r2) = true /\
  Kind r2 = Kind r1.
Proof.
  split; [reflexivity | split; [reflexivity | ]].
  apply (proj2 (kind_key_terminated r1 r2)); reflexivity.
Defined.

Lemma ApplyStoreAction_unknown_kind_witness :
  run memTx (ApplyStoreAction {| Action := StoreActionKindUnknown;
                                 Target := StoreAction_Resource r1 |}) oneRow
    = Returns (Some errUnknownStoreAction, oneRow) /\
  trace memTx (ApplyStoreAction {| Action := StoreActionKindUnknown;
                                   Target := StoreAction_Resource r1 |}) oneRow
    = [] /\
  ApplyStoreAction {| Action := StoreActionKindUnknown;
                      Target := StoreAction_Resource r1 |}
    = ApplyStoreAction {| Action := StoreActionKindUnknown;
                          Target := StoreAction_Other "node" |}.
Proof.
  apply (ApplyStoreAction_unknown_kind memTx r1 (kind := StoreActionKindUnknown)
           "node" oneRow);
    unfold StoreActionKindUnknown, StoreActionKindCreate, StoreActionKindUpdate,
      StoreActionKindRemove; lia.
Defined.

(** Save with entries already in the field: the store holds [r1], the
    snapshot holds [r2]; the field ends as [[r1]], not as [[r2; r1]]. *)
Lemma Save_appends_counterexample :
  Resources snapshot2 = [r2] /\
  run memTx (FindResources All) oneRow = Returns (([r1], None), oneRow) /\
  run memTx (Save snapshot2) oneRow =
    Returns (({| Extensions := [volume]; Resources := [r1] |}, None), oneRow) /\
  [r1] <> Resources snapshot2 ++ [r1].
Proof.
  repeat split; discriminate.
Qed.

(** The match-everything selector is none of the five, and Find accepts
    it. *)
Lemma Find_All_counterexample :
  ~ listed All /\
  run memTx (FindResources All) oneRow = Returns (([r1], None), oneRow).
Proof.
  split; [intro H; inversion H | reflexivity].
Qed.

(** Update of a resource whose ID is absent and whose Kind is unregistered:
    the error is the one of the check, not NotFound. *)
Lemma Update_unregistered_counterexample :
  existsb (hasID (ID r3)) (rows emptyStore) = false /\
  run memTx (UpdateResource r3) emptyStore =
    Returns (Some (Errorf "object kind gadget is unregistered"), emptyStore) /\
  Errorf "object kind gadget is unregistered" <> ErrNotExist.
Proof.
  repeat split; discriminate.
Qed.

(** A kind with a null byte inside: the key of the kind ["a"] is a prefix of
    the key of the longer kind that starts with ["a"] and a null byte. *)
Lemma kind_prefix_counterexample :
  String.prefix (Kind kindA) (Kind kindANulB) = true /\
  Kind kindA <> Kind kindANulB /\
  resourceIndexerByKind.FromObject (resourceEntry kindA) =
    Returns (true, kindKey kindA, None) /\
  resourceIndexerByKind.FromObject (resourceEntry kindANulB) =
    Returns (true, kindKey kindANulB, None) /\
  hasPrefix (kindKey kindANulB) (kindKey kindA) = true.
Proof.
  repeat split; discriminate.
Qed.

(** ** Beyond the hooks: what the functions do on every transaction *)

Section Reads.
Context {T : Type} (tx : Tx T).

Lemma unwrapResources_map (rs : list Resource) :
  unwrapResources (map resourceEntry rs) = Some rs.
Proof.
  induction rs as [ | r rs IH]; simpl; [reflexivity | now rewrite IH].
Qed.

Lemma unwrapResources_Some (objects : list StoreObject) (rs : list Resource) :
  unwrapResources objects = Some rs -> objects = map resourceEntry rs.
Proof.
  revert rs; induction objects as [ | [r | r | e] rest IH]; simpl; intros rs H.
  - now inversion H.
  - destruct (unwrapResources rest) as [rs' | ]; simpl in H; [ | discriminate].
    inversion H; subst. simpl. now rewrite (IH rs').
  - discriminate.
  - discriminate.
Qed.

Lemma unwrapResources_foreign (objects : list StoreObject) (o : StoreObject) :
  In o objects -> isResourceEntry o = false -> unwrapResources objects = None.
Proof.
  intros Hin Ho.
  induction objects as [ | [r | r | e] rest IH]; simpl in *.
  - contradiction.
  - destruct Hin as [<- | Hin]; [discriminate | ]. now rewrite IH.
  - reflexivity.
  - reflexivity.
Qed.

Lemma unwrapResources_None (objects : list StoreObject) :
  unwrapResources objects = None ->
  exists o, In o objects /\ isResourceEntry o = false.
Proof.
  induction objects as [ | [r | r | e] rest IH]; simpl; intro H.
  - discriminate.
  - destruct (unwrapResources rest); simpl in H; [discriminate | ].
    destruct (IH eq_refl) as (o & Hin & Ho). exists o; split; [now right | exact Ho].
  - exists (apiResource r); split; [now left | reflexivity].
  - exists (extensionEntry e); split; [now left | reflexivity].
Qed.

Lemma run_appendResult (acc : list Resource) (objects : list StoreObject) (s : T) :
  run tx (appendResult acc objects) s =
  match unwrapResources objects with
  | Some rs => Returns (acc ++ rs, s)
  | None => Panics
  end.
Proof.
  revert acc; induction objects as [ | [r | r | e] rest IH]; intro acc; simpl.
  - now rewrite app_nil_r.
  - rewrite IH. destruct (unwrapResources rest); simpl; [ | reflexivity].
    now rewrite <- app_assoc.
  - reflexivity.
  - reflexivity.
Qed.

Lemma trace_appendResult (acc : list Resource) (objects : list StoreObject) (s : T) :
  trace tx (appendResult acc objects) s = [].
Proof.
  revert acc; induction objects as [ | [r | r | e] rest IH]; intro acc; simpl.
  - reflexivity.
  - apply IH.
  - reflexivity.
  - reflexivity.
Qed.

Lemma run_FindResources_any (by_ : By) (s : T) :
  run tx (FindResources by_) s =
  match unwrapResources (fst (tx_find tx s tableResource by_ checkType)) with
  | Some rs => Returns ((rs, snd (tx_find tx s tableResource by_ checkType)), s)
  | None => Panics
  end.
Proof.
  unfold FindResources; simpl.
  destruct (tx_find tx s tableResource by_ checkType) as [objects err]; simpl.
  rewrite run_bind, run_appendResult.
  destruct (unwrapResources objects); reflexivity.
Qed.

Lemma trace_FindResources_any (by_ : By) (s : T) :
  trace tx (FindResources by_) s = [OpFind tableResource by_ checkType].
Proof.
  unfold FindResources; simpl.
  destruct (tx_find tx s tableResource by_ checkType) as [objects err]; simpl.
  rewrite trace_bind, trace_appendResult, run_appendResult.
  destruct (unwrapResources objects); reflexivity.
Qed.

Lemma run_Save_any (snapshot : StoreSnapshot) (s : T) :
  run tx (Save snapshot) s =
  match unwrapResources (fst (tx_find tx s tableResource All checkType)) with
  | Some rs =>
      Returns ((set_Resources snapshot rs,
                snd (tx_find tx s tableResource All checkType)), s)
  | None => Panics
  end.
Proof.
  unfold Save. rewrite run_bind, run_FindResources_any.
  destruct (unwrapResources _); reflexivity.
Qed.

Lemma trace_Save_any (snapshot : StoreSnapshot) (s : T) :
  trace tx (Save snapshot) s = [OpFind tableResource All checkType].
Proof.
  unfold Save. rewrite trace_bind, trace_FindResources_any, run_FindResources_any.
  destruct (unwrapResources _); reflexivity.
Qed.

Lemma run_GetResource (id : string) (s : T) :
  run tx (GetResource id) s =
  match tx_get tx s tableResource id with
  | None => Returns (None, s)
  | Some (resourceEntry r) => Returns (Some r, s)
  | Some _ => Panics
  end.
Proof.
  unfold GetResource; simpl.
  destruct (tx_get tx s tableResource id) as [[r | r | e] | ]; reflexivity.
Qed.

Lemma trace_GetResource (id : string) (s : T) :
  trace tx (GetResource id) s = [OpGet tableResource id].
Proof.
  unfold GetResource; simpl.
  destruct (tx_get tx s tableResource id) as [[r | r | e] | ]; reflexivity.
Qed.

(** X1.  FindResources returns what the transaction's find hands over: the
    resources inside the objects, in the order handed over, together with the
    error of the find whatever it is, so that rows collected before an error
    are returned with it.  It panics when, and only when, an object handed
    over is not a [resourceEntry].  GetResource likewise returns nil on a
    nil answer, the resource inside a [resourceEntry], and panics on an
    object of another type. *)
Theorem reads_hand_over (by_ : By) (id : string) (s : T) :
  let answer := tx_find tx s tableResource by_ checkType in
  (forall rs, fst answer = map resourceEntry rs ->
     run tx (FindResources by_) s = Returns ((rs, snd answer), s)) /\
  (forall o, In o (fst answer) -> isResourceEntry o = false ->
     run tx (FindResources by_) s = Panics) /\
  (run tx (FindResources by_) s = Panics ->
     exists o, In o (fst answer) /\ isResourceEntry o = false) /\
  run tx (GetResource id) s =
    match tx_get tx s tableResource id with
    | None => Returns (None, s)
    | Some (resourceEntry r) => Returns (Some r, s)
    | Some _ => Panics
    end.
Proof.
  intro answer. unfold answer. rewrite run_FindResources_any, run_GetResource.
  repeat split.
  - intros rs H. now rewrite H, unwrapResources_map.
  - intros o Hin Ho. now rewrite (unwrapResources_foreign _ _ Hin Ho).
  - destruct (unwrapResources _) eqn:H; [discriminate | ].
    intros _. now apply unwrapResources_None.
Qed.

(** X2.  GetResource, FindResources and the Save hook read and do nothing
    else, whatever the transaction answers: each makes a single call, the get
    or the find on the resource table, calls no create, update or delete, and
    leaves the state of the transaction as it was. *)
Theorem reads_change_nothing (id : string) (by_ : By) (snapshot : StoreSnapshot)
  (s : T) :
  (trace tx (GetResource id) s = [OpGet tableResource id] /\
   keepsState s (run tx (GetResource id) s)) /\
  (trace tx (FindResources by_) s = [OpFind tableResource by_ checkType] /\
   keepsState s (run tx (FindResources by_) s)) /\
  (trace tx (Save snapshot) s = [OpFind tableResource All checkType] /\
   keepsState s (run tx (Save snapshot) s)).
Proof.
  rewrite trace_GetResource, trace_FindResources_any, trace_Save_any.
  rewrite run_GetResource, run_FindResources_any, run_Save_any.
  repeat split.
  - destruct (tx_get tx s tableResource id) as [[r | r | e] | ]; simpl; auto.
  - destruct (unwrapResources _); simpl; auto.
  - destruct (unwrapResources _); simpl; auto.
Qed.

End Reads.

Section Writes.
Context {T : Type} (tx : Tx T).

Lemma Restore_row_by_row (s : T) (snapshot : StoreSnapshot)
  (current : list Resource) :
  tx_find tx s tableResource All checkType = (map resourceEntry current, None) ->
  exists cs res,
    Restored tx s current (Resources snapshot) cs res /\
    run tx (Restore snapshot) s = res /\
    trace tx (Restore snapshot) s = cs.
Proof.
  intro Hfind. unfold Restore.
  rewrite run_bind, trace_bind.
  rewrite (run_FindResources tx All s current Hfind).
  rewrite (trace_FindResources tx All s current Hfind).
  rewrite run_bind, trace_bind.
  destruct (deleteEach_RowByRow tx current s)
    as (deleted & cs1 & res1 & Hdel & Hrun1 & Htrace1).
  rewrite Hrun1, Htrace1.
  destruct res1 as [[[e | ] s1] | ].
  - exists (OpFind tableResource All checkType :: cs1), (Returns (Some e, s1)).
    repeat split.
    + eapply Restored_delete_failed; eauto.
    + simpl. now rewrite app_nil_r.
  - pose proof (RowByRow_all Hdel eq_refl) as ->.
    destruct (createEach_RowByRow tx (Resources snapshot) s1)
      as (created & cs2 & res2 & Hcre & Hrun2 & Htrace2).
    exists (OpFind tableResource All checkType :: cs1 ++ cs2), res2.
    repeat split.
    + eapply Restored_deleted; eauto.
    + exact Hrun2.
    + simpl. now rewrite Htrace2.
  - exists (OpFind tableResource All checkType :: cs1), Panics.
    repeat split.
    + eapply Restored_delete_panicked; eauto.
    + simpl. now rewrite app_nil_r.
Qed.

(** X3.  Save followed by Restore, on the same state of the transaction:
    when Save has returned no error, Restore from the snapshot it filled
    deletes exactly the rows that were saved, in the order they were saved,
    and then creates these same rows in that order, up to the first error or
    the first call of the storage that panics. *)
Theorem Save_then_Restore (s : T) (snapshot snapshot' : StoreSnapshot) :
  run tx (Save snapshot) s = Returns ((snapshot', None), s) ->
  exists cs res,
    Restored tx s (Resources snapshot') (Resources snapshot') cs res /\
    run tx (Restore snapshot') s = res /\
    trace tx (Restore snapshot') s = cs.
Proof.
  rewrite run_Save_any.
  destruct (tx_find tx s tableResource All checkType) as [objects err] eqn:Hfind.
  simpl. destruct (unwrapResources objects) as [rs | ] eqn:Hrs; [ | discriminate].
  intro H; inversion H; subst.
  apply Restore_row_by_row.
  rewrite Hfind. now rewrite (unwrapResources_Some _ Hrs).
Qed.

(** X4.  Restore touches no row unless the export came back clean.  When the
    find of the export returns an error, Restore returns that error, even if
    rows came with it; when it hands over an object that is not a
    [resourceEntry], Restore panics.  In both cases the find is its only
    call: nothing is deleted or created. *)
Theorem Restore_unclean_export (s : T) (snapshot : StoreSnapshot)
  (objects : list StoreObject) (err : option error) :
  tx_find tx s tableResource All checkType = (objects, err) ->
  err <> None \/ unwrapResources objects = None ->
  trace tx (Restore snapshot) s = [OpFind tableResource All checkType] /\
  run tx (Restore snapshot) s =
    match unwrapResources objects with
    | Some _ => Returns (err, s)
    | None => Panics
    end.
Proof.
  intros Hfind Hunclean. unfold Restore.
  rewrite run_bind, trace_bind, run_FindResources_any, trace_FindResources_any.
  rewrite Hfind; simpl.
  destruct (unwrapResources objects) as [rs | ].
  - destruct err as [e | ].
    + split; reflexivity.
    + destruct Hunclean as [H | H]; [now elim H | discriminate].
  - split; reflexivity.
Qed.

(** X5.  When the registry query itself fails, Create and Update fail with
    that error wrapped as "failed to query extensions", whether or not
    extensions came with it, and not with the unregistered-kind error; the
    query is their only call and the state is untouched. *)
Theorem registry_failure_blocks_writes (r : Resource) (s : T)
  (extensions : list Extension) (e : error) :
  tx_findExtensions tx s (ByName (Kind r)) = (extensions, Some e) ->
  (run tx (CreateResource r) s =
     Returns (Some (Wrap e "failed to query extensions"), s) /\
   trace tx (CreateResource r) s = [OpFindExtensions (ByName (Kind r))]) /\
  (run tx (UpdateResource r) s =
     Returns (Some (Wrap e "failed to query extensions"), s) /\
   trace tx (UpdateResource r) s = [OpFindExtensions (ByName (Kind r))]) /\
  Wrap e "failed to query extensions" <> KindUnregistered (Kind r).
Proof.
  intro Hq.
  rewrite run_CreateResource, trace_CreateResource.
  rewrite run_UpdateResource, trace_UpdateResource.
  unfold createRow, createCalls. rewrite Hq.
  destruct extensions; simpl; repeat split; discriminate.
Qed.

(** *** The footprint of the hooks *)

Lemma forallb_trace_bind {A B : Type} (P : Op -> bool) (p : Prog A)
  (f : A -> Prog B) (s : T) :
  forallb P (trace tx (bind p f) s) =
  forallb P (trace tx p s) &&
  match run tx p s with
  | Returns (a, s') => forallb P (trace tx (f a) s')
  | Panics => true
  end.
Proof.
  rewrite trace_bind, forallb_app.
  destruct (run tx p s) as [[a s'] | ]; reflexivity.
Qed.

Lemma createCalls_resourceCall (r : Resource) (s : T) :
  forallb resourceCall (createCalls tx r s) = true.
Proof.
  unfold createCalls. destruct (kindCheck _ _); reflexivity.
Qed.

Lemma createCalls_one_write (r : Resource) (s : T) :
  List.length (filter is_write (createCalls tx r s)) <= 1.
Proof.
  unfold createCalls. destruct (kindCheck _ _); simpl; lia.
Qed.

Lemma deleteEach_resourceCall (l : list Resource) (s : T) :
  forallb resourceCall (trace tx (deleteEach l) s) = true.
Proof.
  revert s; induction l as [ | r rest IH]; intro s.
  - reflexivity.
  - cbn [deleteEach].
    rewrite forallb_trace_bind, run_DeleteResource, trace_DeleteResource.
    destruct (tx_delete tx s tableResource (ID r)) as [[[e | ] s1] | ]; simpl.
    + reflexivity.
    + apply IH.
    + reflexivity.
Qed.

Lemma createEach_resourceCall (l : list Resource) (s : T) :
  forallb resourceCall (trace tx (createEach l) s) = true.
Proof.
  revert s; induction l as [ | r rest IH]; intro s.
  - reflexivity.
  - cbn [createEach].
    rewrite forallb_trace_bind, run_CreateResource, trace_CreateResource.
    rewrite createCalls_resourceCall.
    destruct (createRow tx r s) as [[[e | ] s1] | ]; simpl.
    + reflexivity.
    + apply IH.
    + reflexivity.
Qed.

(** X6.  Applying a store action calls the storage to mutate at most once:
    whatever the action, the transaction and its answers, and whether or not
    a call panics, at most one of the calls ApplyStoreAction makes is a
    create, an update or a delete. *)
Theorem ApplyStoreAction_one_mutation (sa : StoreAction) (s : T) :
  List.length (filter is_write (trace tx (ApplyStoreAction sa) s)) <= 1.
Proof.
  destruct sa as [kind [obj | other]]; unfold ApplyStoreAction; simpl;
    [ | lia].
  destruct (Z.eqb kind StoreActionKindCreate);
    [ | destruct (Z.eqb kind StoreActionKindUpdate);
        [ | destruct (Z.eqb kind StoreActionKindRemove)]].
  - rewrite trace_CreateResource. apply createCalls_one_write.
  - rewrite trace_UpdateResource. destruct (kindCheck _ _); simpl; lia.
  - rewrite trace_DeleteResource. simpl; lia.
  - simpl; lia.
Qed.

(** X7.  The tables the hooks and the read functions touch.  On any
    transaction and whatever it answers, every get, find, create, update and
    delete that Save, Restore, ApplyStoreAction, GetResource and
    FindResources call names the table "resource", and every object handed
    to create or update is a resourceEntry.  The only other call is the
    registry query FindExtensions, a read of the extension table, always by
    name; Save, GetResource and FindResources never make it. *)
Theorem calls_on_resource_table_or_registry (snapshot : StoreSnapshot)
  (sa : StoreAction) (id : string) (by_ : By) (s : T) :
  (forallb resourceCall (trace tx (Save snapshot) s) = true /\
   existsb registryRead (trace tx (Save snapshot) s) = false) /\
  (forallb resourceCall (trace tx (GetResource id) s) = true /\
   existsb registryRead (trace tx (GetResource id) s) = false) /\
  (forallb resourceCall (trace tx (FindResources by_) s) = true /\
   existsb registryRead (trace tx (FindResources by_) s) = false) /\
  forallb resourceCall (trace tx (Restore snapshot) s) = true /\
  forallb resourceCall (trace tx (ApplyStoreAction sa) s) = true.
Proof.
  rewrite trace_Save_any, trace_GetResource, trace_FindResources_any.
  repeat split.
  - unfold Restore.
    rewrite forallb_trace_bind, trace_FindResources_any, run_FindResources_any.
    destruct (tx_find tx s tableResource All checkType) as [objects err]; simpl.
    destruct (unwrapResources objects) as [rs | ]; [ | reflexivity].
    destruct err as [e | ]; [reflexivity | ].
    rewrite forallb_trace_bind, deleteEach_resourceCall; simpl.
    destruct (run tx (deleteEach rs) s) as [[[e | ] s1] | ]; try reflexivity.
    apply createEach_resourceCall.
  - destruct sa as [kind [obj | other]]; unfold ApplyStoreAction; simpl;
      [ | reflexivity].
    destruct (Z.eqb kind StoreActionKindCreate);
      [ | destruct (Z.eqb kind StoreActionKindUpdate);
          [ | destruct (Z.eqb kind StoreActionKindRemove)]].
    + rewrite trace_CreateResource. apply createCalls_resourceCall.
    + rewrite trace_UpdateResource. destruct (kindCheck _ _); reflexivity.
    + rewrite trace_DeleteResource. reflexivity.
    + reflexivity.
Qed.

End Writes.

(** ** More on the kind index *)

Lemma list_byte_of_string_app (k q : string) :
  list_byte_of_string (k ++ q) = list_byte_of_string k ++ list_byte_of_string q.
Proof.
  induction k as [ | a k IH].
  - reflexivity.
  - cbn [append]. rewrite !list_byte_of_string_cons, IH. reflexivity.
Qed.

Lemma kindKey_app (r : Resource) :
  kindKey r = list_byte_of_string (Kind r) ++ [x00].
Proof. unfold kindKey. now rewrite list_byte_of_string_app. Qed.

Lemma byte_eqb_ascii (a c : ascii) :
  Byte.eqb (byte_of_ascii a) (byte_of_ascii c) = Ascii.eqb a c.
Proof.
  destruct (Ascii.eqb_spec a c) as [-> | Hneq].
  - now apply Byte.byte_dec_lb.
  - destruct (Byte.eqb (byte_of_ascii a) (byte_of_ascii c)) eqn:E; [ | reflexivity].
    apply Byte.byte_dec_bl, byte_of_ascii_inj in E. contradiction.
Qed.

Lemma hasPrefix_nil (key : list byte) : hasPrefix key [] = true.
Proof. destruct key; reflexivity. Qed.

Lemma hasPrefix_terminated (k q : string) :
  hasPrefix (list_byte_of_string (k ++ String "000" EmptyString))
            (list_byte_of_string (q ++ String "000" EmptyString)) =
  String.eqb q k || String.prefix (q ++ String "000" EmptyString) k.
Proof.
  revert k; induction q as [ | a q IH]; intros [ | c k].
  - reflexivity.
  - cbn [append]. rewrite !list_byte_of_string_cons.
    change (list_byte_of_string EmptyString) with (@nil byte).
    cbn [hasPrefix String.eqb String.prefix orb].
    rewrite byte_eqb_ascii, hasPrefix_nil, andb_true_r.
    destruct (ascii_dec "000" c) as [<- | Hneq].
    + destruct k; reflexivity.
    + now apply Ascii.eqb_neq.
  - cbn [append]. rewrite !list_byte_of_string_cons.
    change (list_byte_of_string EmptyString) with (@nil byte).
    cbn [hasPrefix String.eqb String.prefix orb].
    destruct q; cbn [append]; rewrite list_byte_of_string_cons;
      cbn [hasPrefix]; apply andb_false_r.
  - cbn [append]. rewrite !list_byte_of_string_cons.
    cbn [hasPrefix String.eqb String.prefix]. rewrite byte_eqb_ascii, IH.
    destruct (ascii_dec a c) as [<- | Hneq].
    + now rewrite Ascii.eqb_refl.
    + apply Ascii.eqb_neq in Hneq. now rewrite Hneq.
Qed.

(** X8.  The key of the kind index can be read back: for every resource,
    FromObject reports a key that is present ([true]) with no error, the key
    ends with the null byte, and the bytes before it are the Kind.  So two
    resources with the same key have the same Kind, whatever bytes the kinds
    hold. *)
Theorem kind_key_decodes (r q : Resource) :
  (exists key,
     resourceIndexerByKind.FromObject (resourceEntry r) = Returns (true, key, None) /\
     kindOfKey key = Kind r /\
     last key x01 = x00) /\
  (kindKey r = kindKey q -> Kind r = Kind q).
Proof.
  assert (Hdecode : forall x, kindOfKey (kindKey x) = Kind x).
  { intro x. unfold kindOfKey. rewrite kindKey_app, removelast_last.
    apply string_of_list_byte_of_string. }
  split.
  - exists (kindKey r). repeat split.
    + apply Hdecode.
    + rewrite kindKey_app. apply last_last.
  - intro H. rewrite <- (Hdecode r), <- (Hdecode q). now rewrite H.
Qed.

(** X9.  What a prefix match on the kind index selects: the key of a kind
    [q] is a prefix of the key of a resource exactly when the resource's Kind
    is [q], or starts with [q] followed by a null byte.  A kind that merely
    extends [q] with other bytes is not selected. *)
Theorem kind_prefix_match (r q : Resource) :
  hasPrefix (kindKey r) (kindKey q) =
  String.eqb (Kind q) (Kind r) ||
  String.prefix (Kind q ++ String "000" EmptyString) (Kind r).
Proof. apply hasPrefix_terminated. Qed.

(** ** The further properties on sample stores *)

Lemma reads_hand_over_witness :
  run memTx (FindResources (byKind "volume")) oneRow = Returns (([r1], None), oneRow) /\
  run faultyTx (FindResources (byKind "volume")) oneRow = Panics /\
  exists o,
    In o (fst (tx_find faultyTx oneRow tableResource (byKind "volume") checkType)) /\
    isResourceEntry o = false.
Proof.
  split; [ | split].
  - apply (proj1 (reads_hand_over memTx (byKind "volume") "r1" oneRow) [r1]).
    reflexivity.
  - apply (proj1 (proj2 (reads_hand_over faultyTx (byKind "volume") "r1" oneRow))
             (extensionEntry volume)).
    + simpl. right; left; reflexivity.
    + reflexivity.
  - apply (proj1 (proj2 (proj2 (reads_hand_over faultyTx (byKind "volume") "r1"
                                  oneRow)))).
    reflexivity.
Defined.

Lemma Save_then_Restore_witness :
  exists cs res,
    Restored memTx oneRow [r1] [r1] cs res /\
    run memTx (Restore {| Extensions := [volume]; Resources := [r1] |}) oneRow
      = res /\
    trace memTx (Restore {| Extensions := [volume]; Resources := [r1] |}) oneRow = cs.
Proof.
  apply (@Save_then_Restore _ memTx oneRow snapshot2
           {| Extensions := [volume]; Resources := [r1] |}).
  reflexivity.
Defined.

Lemma Restore_unclean_export_witness :
  trace faultyTx (Restore snapshot21) oneRow = [OpFind tableResource All checkType] /\
  run faultyTx (Restore snapshot21) oneRow =
    Returns (Some (ErrEngine "scan interrupted"), oneRow).
Proof.
  apply (@Restore_unclean_export _ faultyTx oneRow snapshot21
           [resourceEntry r1] (Some (ErrEngine "scan interrupted"))).
  - reflexivity.
  - left; discriminate.
Defined.

Lemma registry_failure_blocks_writes_witness :
  (run faultyTx (CreateResource r2) oneRow =
     Returns (Some (Wrap (ErrEngine "registry unavailable")
                      "failed to query extensions"), oneRow) /\
   trace faultyTx (CreateResource r2) oneRow = [OpFindExtensions (ByName "volume")]) /\
  (run faultyTx (UpdateResource r2) oneRow =
     Returns (Some (Wrap (ErrEngine "registry unavailable")
                      "failed to query extensions"), oneRow) /\
   trace faultyTx (UpdateResource r2) oneRow = [OpFindExtensions (ByName "volume")]) /\
  Wrap (ErrEngine "registry unavailable") "failed to query extensions"
    <> KindUnregistered "volume".
Proof.
  apply (@registry_failure_blocks_writes _ faultyTx r2 oneRow [volume]
           (ErrEngine "registry unavailable")).
  reflexivity.
Defined.

Lemma kind_key_decodes_witness :
  kindKey r1 = kindKey r2 /\ Kind r1 = Kind r2.
Proof.
  split; [reflexivity | ].
  apply (proj2 (kind_key_decodes r1 r2)). reflexivity.
Defined.
